(** * FoodCode/visualizer.py: the [Visualizer] adapter, embedded and verified

    The Python module is a thin adapter around three collaborators that
    are imported, not implemented, by the source: the OpenCV binding
    ([cv2]), [screeninfo] and the OTX toolkit ([ShapeDrawer],
    [BaseStreamer]).  The embedding keeps that shape:

    - every method of [Visualizer] is a computation in a state-and-error
      monad whose state holds the instance ([self]) and the outside
      [World];
    - every call that leaves the module is a primitive that appends an
      [Event] to the world's [trace], whether the call returns or raises,
      and applies the documented effect of the call to the world (a new
      array for [cv2.cvtColor], a written file for [cv2.imwrite], a
      consumed key for [cv2.waitKey]);
    - what the collaborators compute on pixels, and the numeric values of
      the OpenCV constants, are parameters ([OpenCV], [OTX]);
    - the exceptions that are modelled are those of the operators of the
      source itself (indexing [get_monitors()[0]], the division
      [1 / streamer.fps()]) and those the libraries raise on the calls
      as the source writes them: [ScreenInfoError] when no monitor can be
      enumerated, [cv2.error] for a call the binding has no overload for
      and for a file name without an encoder. *)

From Stdlib Require Import ZArith String Ascii List Bool Lia.
From Stdlib Require Import Floats.PrimFloat.
From stdpp Require Import base option list gmap strings.

Local Open Scope string_scope.
Local Open Scope list_scope.

(** ** Python values and operators used by the source *)

Module Py.

Inductive exn : Type :=
| IndexError
| ZeroDivisionError
| TypeError
| ScreenInfoError
| Cv2Error.

Inductive result (A : Type) : Type :=
| Ok (a : A)
| Raised (e : exn).
Arguments Ok {A} a.
Arguments Raised {A} e.

(** [sub in s] on [str]. *)
Fixpoint contains (sub s : string) : bool :=
  String.prefix sub s
  || match s with
     | EmptyString => false
     | String _ rest => contains sub rest
     end.

(** [ord(c)] for a one-character string. *)
Definition ord (c : ascii) : Z := Z.of_N (N_of_ascii c).

(** [a / b] on floats: Python raises when the divisor compares equal to
    zero (either sign), and otherwise divides in binary64. *)
Definition truediv (a b : float) : result float :=
  if PrimFloat.eqb b 0%float then Raised ZeroDivisionError
  else Ok (PrimFloat.div a b).

(** [l[i]] for a non-negative index. *)
Definition getitem {A : Type} (l : list A) (i : nat) : result A :=
  match l !! i with
  | Some a => Ok a
  | None => Raised IndexError
  end.

(** Truth value of an [Optional[str]]: [None] and [''] are false. *)
Definition truthy (o : option string) : bool :=
  match o with
  | None => false
  | Some EmptyString => false
  | Some (String _ _) => true
  end.

End Py.

Export Py (exn(..), result(..)).

(** ** Data of the collaborators *)

(** A [numpy.ndarray] object is known by its identity; its pixels live in
    the world's heap, so that aliasing and in-place writes can be told
    apart from fresh allocations. *)
Definition ref : Type := nat.
Definition ndarray : Type := list (list (list Z)).

(** [screeninfo.Monitor]: only the two coordinates the source reads. *)
Module Monitor.
Record t : Type := { x : Z; y : Z }.
End Monitor.

(** [otx.api.utils.shape_drawer.ShapeDrawer(show_count, is_one_label)]. *)
Record ShapeDrawer : Type := { show_count : bool; is_one_label : bool }.

(** What [streamer.get_type()] returns is only ever passed to [str]. *)
Inductive MediaType : Type := MkMediaType (repr : string).
Definition str (m : MediaType) : string := let 'MkMediaType s := m in s.

(** [BaseStreamer]: the two methods [video_delay] calls. *)
Record BaseStreamer : Type := { get_type : MediaType; fps : float }.

(** The OpenCV binding: the constants the source names and the two pure
    transformations behind [cvtColor] and [imwrite].  [imencode] has no
    result for a file name whose extension has no encoder. *)
Class OpenCV : Type := {
  WINDOW_GUI_NORMAL : Z;
  WINDOW_AUTOSIZE : Z;
  COLOR_RGB2BGR : Z;
  cvtColor_data : Z -> ndarray -> ndarray;
  imencode : string -> ndarray -> option (list Z)
}.

(** The OTX toolkit: annotations and labels are opaque to the source;
    [ShapeDrawer_render d h img ann labels] is [d.draw(img, ann, labels)]
    run on the heap [h], giving the new heap and the returned array. *)
Class OTX : Type := {
  AnnotationSceneEntity : Type;
  LabelEntity : Type;
  ShapeDrawer_render :
    ShapeDrawer -> list ndarray -> ref -> AnnotationSceneEntity ->
    list LabelEntity -> list ndarray * ref
}.

(** The [meta] argument of [draw]. *)
Definition dict : Type := gmap string string.

(** ** The world and the instance *)

Section Model.
Context `{cv : OpenCV} `{otx : OTX}.

(** Calls that leave the module, in the order they are made. *)
Inductive Event : Type :=
| EGetMonitors
| ENamedWindow (winname : string) (flags : Z)
| EResizeWindow (winname : string) (width height : Z)
| EMoveWindow (winname : string) (wx wy : Z)
| ECvtColor (src : ref) (code : Z)
| EShapeDraw (d : ShapeDrawer) (img : ref) (ann : AnnotationSceneEntity)
             (labels : list LabelEntity)
| EImshow (winname : string) (img : ref) (extra : list Z)
| EImwrite (path : string) (img : ref)
| EWaitKey (delay : Z)
| EStreamerGetType
| EStreamerFps
| ESleep (secs : float).

Record World : Type := {
  monitors : list Monitor.t;     (* what screeninfo enumerates *)
  heap : list ndarray;          (* the ndarray objects, by identity *)
  files : gmap string (list Z); (* the file system, by path *)
  locked : list string;         (* the paths that cannot be written *)
  keys : list Z;                (* results of the coming key polls *)
  trace : list Event
}.

(** The attributes [__init__] assigns.  [delay] is an [Optional[int]]
    because the source first stores the argument as it came. *)
Record Visualizer : Type := {
  window_name : string;
  shape_drawer : ShapeDrawer;
  delay : option Z;
  no_show : bool;
  output : option string;
  capture_window : option ref
}.

Record State : Type := { self : Visualizer; world : World }.

(** Attribute assignment, one function per attribute. *)
Definition set_window_name (n : string) (v : Visualizer) : Visualizer :=
  {| window_name := n; shape_drawer := shape_drawer v; delay := delay v;
     no_show := no_show v; output := output v;
     capture_window := capture_window v |}.

Definition set_shape_drawer (d : ShapeDrawer) (v : Visualizer) : Visualizer :=
  {| window_name := window_name v; shape_drawer := d; delay := delay v;
     no_show := no_show v; output := output v;
     capture_window := capture_window v |}.

Definition set_delay (d : option Z) (v : Visualizer) : Visualizer :=
  {| window_name := window_name v; shape_drawer := shape_drawer v; delay := d;
     no_show := no_show v; output := output v;
     capture_window := capture_window v |}.

Definition set_no_show (b : bool) (v : Visualizer) : Visualizer :=
  {| window_name := window_name v; shape_drawer := shape_drawer v;
     delay := delay v; no_show := b; output := output v;
     capture_window := capture_window v |}.

Definition set_output (o : option string) (v : Visualizer) : Visualizer :=
  {| window_name := window_name v; shape_drawer := shape_drawer v;
     delay := delay v; no_show := no_show v; output := o;
     capture_window := capture_window v |}.

Definition set_capture_window (c : option ref) (v : Visualizer) : Visualizer :=
  {| window_name := window_name v; shape_drawer := shape_drawer v;
     delay := delay v; no_show := no_show v; output := output v;
     capture_window := c |}.

Definition with_heap (h : list ndarray) (w : World) : World :=
  {| monitors := monitors w; heap := h; files := files w;
     locked := locked w; keys := keys w; trace := trace w |}.

Definition with_files (f : gmap string (list Z)) (w : World) : World :=
  {| monitors := monitors w; heap := heap w; files := f;
     locked := locked w; keys := keys w; trace := trace w |}.

Definition with_keys (k : list Z) (w : World) : World :=
  {| monitors := monitors w; heap := heap w; files := files w;
     locked := locked w; keys := k; trace := trace w |}.

Definition with_trace (t : list Event) (w : World) : World :=
  {| monitors := monitors w; heap := heap w; files := files w;
     locked := locked w; keys := keys w; trace := t |}.

Definition emit (evs : list Event) (w : World) : World :=
  with_trace (trace w ++ evs) w.

(** *** The monad *)

Definition M (A : Type) : Type := State -> result A * State.

Definition ret {A : Type} (a : A) : M A := fun s => (Ok a, s).

Definition raise {A : Type} (e : exn) : M A := fun s => (Raised e, s).

Definition bind {A B : Type} (m : M A) (k : A -> M B) : M B :=
  fun s =>
    match m s with
    | (Ok a, s') => k a s'
    | (Raised e, s') => (Raised e, s')
    end.

Definition lift {A : Type} (r : result A) : M A := fun s => (r, s).

Definition getattr {A : Type} (field : Visualizer -> A) : M A :=
  fun s => (Ok (field (self s)), s).

Definition setattr (upd : Visualizer -> Visualizer) : M unit :=
  fun s => (Ok tt, {| self := upd (self s); world := world s |}).

Definition on_world (f : World -> World) : M unit :=
  fun s => (Ok tt, {| self := self s; world := f (world s) |}).

Definition ask {A : Type} (f : World -> A) : M A :=
  fun s => (Ok (f (world s)), s).

End Model.

Declare Scope py_scope.
Delimit Scope py_scope with py.
Notation "v <- m ;; k" := (bind m (fun v => k))
  (at level 100, m at next level, right associativity) : py_scope.
Notation "m ;; k" := (bind m (fun _ => k))
  (at level 100, right associativity) : py_scope.
Local Open Scope py_scope.

(** ** The library calls the source makes *)

Module screeninfo.
Section Calls.
Context `{cv : OpenCV} `{otx : OTX}.

(** [screeninfo.get_monitors()]: the monitors found; when none can be
    enumerated the call raises, it never returns an empty list. *)
Definition get_monitors : M (list Monitor.t) :=
  on_world (emit [EGetMonitors]) ;;
  found <- ask monitors ;;
  match found with
  | [] => raise Py.ScreenInfoError
  | _ :: _ => ret found
  end.
End Calls.
End screeninfo.

Module cv2.
Section Calls.
Context `{cv : OpenCV} `{otx : OTX}.

Definition namedWindow (winname : string) (flags : Z) : M unit :=
  on_world (emit [ENamedWindow winname flags]).

Definition resizeWindow (winname : string) (width height : Z) : M unit :=
  on_world (emit [EResizeWindow winname width height]).

Definition moveWindow (winname : string) (wx wy : Z) : M unit :=
  on_world (emit [EMoveWindow winname wx wy]).

(** The pixels of an array; a reference handed to the module always
    denotes an object, the default covers the rest of [nat]. *)
Definition pixels (w : World) (r : ref) : ndarray :=
  default [] (heap w !! r).

(** [dst = cv2.cvtColor(src, code)]: [src] is read, the result is a
    newly allocated array. *)
Definition cvtColor (src : ref) (code : Z) : M ref :=
  on_world (emit [ECvtColor src code]) ;;
  dst <- ask (fun w => length (heap w)) ;;
  on_world (fun w =>
    with_heap (heap w ++ [cvtColor_data code (pixels w src)]) w) ;;
  ret dst.

(** [cv2.imshow(winname, mat)] takes a window name and an image.
    [extra] are the positional arguments a caller passes after these
    two: the binding has no overload for any, and rejects such a call
    with [cv2.error] before anything is drawn. *)
Definition imshow (winname : string) (mat : ref) (extra : list Z) : M unit :=
  on_world (emit [EImshow winname mat extra]) ;;
  match extra with
  | [] => ret tt
  | _ :: _ => raise Py.Cv2Error
  end.

(** Whether the file system refuses a write to [path]. *)
Definition refuses (w : World) (path : string) : bool :=
  existsb (String.eqb path) (locked w).

(** [cv2.imwrite(filename, img)].  The argument is the attribute
    [self.output] as it is, an [Optional[str]]; [None] is not a file
    name.  Without an encoder for the name the call raises [cv2.error];
    when the file cannot be written it returns [False] and writes
    nothing; otherwise the file becomes the encoding of the pixels [img]
    has now, and the call returns [True]. *)
Definition imwrite (filename : option string) (img : ref) : M bool :=
  match filename with
  | None => raise Py.TypeError
  | Some path =>
      on_world (emit [EImwrite path img]) ;;
      encoded <- ask (fun w => imencode path (pixels w img)) ;;
      match encoded with
      | None => raise Py.Cv2Error
      | Some bytes =>
          refused <- ask (fun w => refuses w path) ;;
          if refused then ret false
          else
            on_world (fun w => with_files (<[path := bytes]> (files w)) w) ;;
            ret true
      end
  end.

(** [cv2.waitKey(delay)]: the code of the key pressed within the
    wait, [-1] when there is none.  The argument is the attribute
    [self.delay], an [Optional[int]]; [None] is not a delay. *)
Definition poll (w : World) : Z :=
  match keys w with
  | [] => (-1)%Z
  | k :: _ => k
  end.

Definition waitKey (d : option Z) : M Z :=
  match d with
  | None => raise Py.TypeError
  | Some ms =>
      on_world (emit [EWaitKey ms]) ;;
      key <- ask poll ;;
      on_world (fun w => with_keys (tail (keys w)) w) ;;
      ret key
  end.
End Calls.
End cv2.

Module time.
Section Calls.
Context `{cv : OpenCV} `{otx : OTX}.

Definition sleep (secs : float) : M unit :=
  on_world (emit [ESleep secs]).
End Calls.
End time.

Module streamer.
Section Calls.
Context `{cv : OpenCV} `{otx : OTX}.

Definition get_type (st : BaseStreamer) : M MediaType :=
  on_world (emit [EStreamerGetType]) ;;
  ret (get_type st).

Definition fps (st : BaseStreamer) : M float :=
  on_world (emit [EStreamerFps]) ;;
  ret (fps st).
End Calls.
End streamer.

Module shape_drawer_api.
Section Calls.
Context `{cv : OpenCV} `{otx : OTX}.

Definition draw (d : ShapeDrawer) (image : ref)
    (annotation : AnnotationSceneEntity) (labels : list LabelEntity) : M ref :=
  on_world (emit [EShapeDraw d image annotation labels]) ;;
  out <- ask (fun w => ShapeDrawer_render d (heap w) image annotation labels) ;;
  on_world (with_heap (fst out)) ;;
  ret (snd out).
End Calls.
End shape_drawer_api.

(** ** The source: class [Visualizer] *)

Module Visualizer.
Section Methods.
Context `{cv : OpenCV} `{otx : OTX}.

(** [Visualizer.__init__], run on the instance being initialised.  The
    defaults of the Python signature are [None], [False], [False],
    [False], [None], [None]. *)
Definition __init__ (window_name_arg : option string)
    (show_count_arg is_one_label_arg no_show_arg : bool)
    (delay_arg : option Z) (output_arg : option string) : M unit :=
  setattr (set_window_name
             (match window_name_arg with
              | None => "Window"
              | Some n => n
              end)) ;;
  setattr (set_shape_drawer
             {| show_count := show_count_arg;
                is_one_label := is_one_label_arg |}) ;;
  setattr (set_delay delay_arg) ;;
  setattr (set_no_show no_show_arg) ;;
  (match delay_arg with
   | None => setattr (set_delay (Some 1%Z))
   | Some _ => ret tt
   end) ;;
  setattr (set_output output_arg) ;;
  setattr (set_capture_window None) ;;
  found <- screeninfo.get_monitors ;;
  screen <- lift (Py.getitem found 0) ;;
  let monitor_x := Monitor.x screen in
  let monitor_y := Monitor.y screen in
  let window_x := (monitor_x + 1200)%Z in
  let window_y := (monitor_y + 300)%Z in
  name <- getattr window_name ;;
  cv2.namedWindow name WINDOW_GUI_NORMAL ;;
  name <- getattr window_name ;;
  cv2.resizeWindow name 960%Z 720%Z ;;
  name <- getattr window_name ;;
  cv2.moveWindow name window_x window_y.

(** [Visualizer.draw]. *)
Definition draw (image : ref) (annotation : AnnotationSceneEntity)
    (meta : option dict) : M ref :=
  image <- cv2.cvtColor image COLOR_RGB2BGR ;;
  drawer <- getattr shape_drawer ;;
  shape_drawer_api.draw drawer image annotation [].

(** [Visualizer.show]. *)
Definition show (image : ref) : M unit :=
  hidden <- getattr no_show ;;
  if negb hidden then
    name <- getattr window_name ;;
    cv2.imshow name image [Z.lor WINDOW_GUI_NORMAL WINDOW_AUTOSIZE] ;;
    configured <- getattr output ;;
    if Py.truthy configured then
      path <- getattr output ;;
      cv2.imwrite path image ;;
      ret tt
    else ret tt
  else ret tt.

(** [Visualizer.is_quit]. *)
Definition is_quit : M bool :=
  hidden <- getattr no_show ;;
  if hidden then ret false
  else
    wait <- getattr delay ;;
    key <- cv2.waitKey wait ;;
    ret (Z.eqb (Py.ord "q") key).

(** [Visualizer.video_delay]. *)
Definition video_delay (elapsed_time : float) (st : BaseStreamer) : M unit :=
  hidden <- getattr no_show ;;
  if hidden then ret tt
  else
    kind <- streamer.get_type st ;;
    if Py.contains "VIDEO" (str kind) then
      rate <- streamer.fps st ;;
      orig_frame_time <- lift (Py.truediv 1%float rate) ;;
      if PrimFloat.ltb elapsed_time orig_frame_time then
        time.sleep (PrimFloat.sub orig_frame_time elapsed_time)
      else ret tt
    else ret tt.

End Methods.
End Visualizer.

(** ** Sample collaborators

    Concrete instances of the two parameter classes, used to run the
    methods on explicit inputs.  [opencv4] takes the constants from the
    OpenCV 4 headers, reverses the channels of every pixel for
    [COLOR_RGB2BGR] and encodes, for names with [.png] in them, as the
    flat list of channel values;
    [marker] is a drawer that paints the listed pixels white in place. *)

Module Sample.

Definition opencv4 : OpenCV :=
  {| WINDOW_GUI_NORMAL := 16;
     WINDOW_AUTOSIZE := 1;
     COLOR_RGB2BGR := 4;
     cvtColor_data := fun code a =>
       if Z.eqb code 4 then map (map (@rev Z)) a else a;
     imencode := fun path a =>
       if Py.contains ".png" path then Some (concat (concat a)) else None |}.

Definition mark (p : nat * nat) (a : ndarray) : ndarray :=
  match a !! fst p with
  | Some row => <[fst p := <[snd p := [255; 255; 255]%Z]> row]> a
  | None => a
  end.

Definition marker : OTX :=
  {| AnnotationSceneEntity := list (nat * nat);
     LabelEntity := string;
     ShapeDrawer_render := fun _ h img ann _ =>
       (<[img := foldr mark (default [] (h !! img)) ann]> h, img) |}.

(** A drawer that ignores its contract: it hands back array [0]. *)
Definition careless : OTX :=
  {| AnnotationSceneEntity := unit;
     LabelEntity := string;
     ShapeDrawer_render := fun _ h _ _ _ => (h, 0) |}.

Definition screen0 : Monitor.t := {| Monitor.x := 0; Monitor.y := 0 |}.

Definition blank `{otx : OTX} : Visualizer :=
  {| window_name := ""; shape_drawer := {| show_count := false; is_one_label := false |};
     delay := None; no_show := false; output := None; capture_window := None |}.

(** One monitor at the origin, one 1x2 RGB image, no file, no key. *)
Definition world0 `{otx : OTX} : World :=
  {| monitors := [screen0];
     heap := [[[[1; 2; 3]; [4; 5; 6]]]]%Z;
     files := ∅; locked := [];
     keys := [];
     trace := [] |}.

Definition fresh `{otx : OTX} : State := {| self := blank; world := world0 |}.

(** The instance [Visualizer()] builds, and two variations of it. *)
Definition plain `{otx : OTX} : Visualizer :=
  {| window_name := "Window";
     shape_drawer := {| show_count := false; is_one_label := false |};
     delay := Some 1%Z; no_show := false; output := None;
     capture_window := None |}.

Definition headless `{otx : OTX} : Visualizer := set_no_show true plain.

Definition recording `{otx : OTX} : Visualizer :=
  set_output (Some "out.png") plain.

Definition shown `{otx : OTX} : State := {| self := plain; world := world0 |}.

Definition hidden `{otx : OTX} : State :=
  {| self := headless; world := world0 |}.

(** A world in which the file to record to already has content. *)
Definition saving `{otx : OTX} : State :=
  {| self := recording;
     world := with_files (<["out.png" := [9; 9]%Z]> ∅) world0 |}.

(** [0.01] as a binary64 value. *)
Definition ten_ms : float := 0x1.47ae147ae147bp-7%float.

Definition video30 : BaseStreamer :=
  {| get_type := MkMediaType "MediaType.VIDEO"; fps := 30%float |}.

Definition camera : BaseStreamer :=
  {| get_type := MkMediaType "MediaType.CAMERA"; fps := 0%float |}.

End Sample.

(** ** What a trace says *)

Section Observations.
Context `{otx : OTX}.

(** The durations of the [time.sleep] calls of a trace. *)
Fixpoint sleeps (t : list Event) : list float :=
  match t with
  | [] => []
  | ESleep d :: rest => d :: sleeps rest
  | _ :: rest => sleeps rest
  end.

(** The conversion codes of the [cv2.cvtColor] calls of a trace. *)
Fixpoint conversions (t : list Event) : list Z :=
  match t with
  | [] => []
  | ECvtColor _ code :: rest => code :: conversions rest
  | _ :: rest => conversions rest
  end.

(** The window calls (create, resize, move) of a trace. *)
Definition is_window_call (e : Event) : bool :=
  match e with
  | ENamedWindow _ _ | EResizeWindow _ _ _ | EMoveWindow _ _ _ => true
  | _ => false
  end.

End Observations.

(** ** The composition [draw] is specified to be, and the drawer's contract *)

Section Specification.
Context `{cv : OpenCV} `{otx : OTX}.

(** "Converts the input image's color channel ordering (RGB to BGR)". *)
Definition converted_image (w : World) (image : ref) : ndarray :=
  cvtColor_data COLOR_RGB2BGR (cv2.pixels w image).

(** The specification of [draw], in its own words: convert the channel
    order, hand the converted image and the annotation to the drawer
    with an empty label list, return what the drawer returns; the
    instance is not touched. *)
Definition draw_spec (image : ref) (annotation : AnnotationSceneEntity)
    (s : State) : result ref * State :=
  let w := world s in
  let bgr := length (heap w) in
  let rendered :=
    ShapeDrawer_render (shape_drawer (self s))
      (heap w ++ [converted_image w image]) bgr annotation [] in
  (Ok (snd rendered),
   {| self := self s;
      world :=
        with_heap (fst rendered)
          (emit [ECvtColor image COLOR_RGB2BGR;
                 EShapeDraw (shape_drawer (self s)) bgr annotation []] w) |}).

(** The drawer's side of the contract: it writes only to the array it
    is handed or to arrays it allocates, and returns one of those. *)
Definition drawer_keeps_frame : Prop :=
  forall (d : ShapeDrawer) (h : list ndarray) (img : ref)
         (ann : AnnotationSceneEntity) (labels : list LabelEntity),
    img < length h ->
    (forall r : ref, r < length h -> r <> img ->
       fst (ShapeDrawer_render d h img ann labels) !! r = h !! r)
    /\ (snd (ShapeDrawer_render d h img ann labels) = img
        \/ length h <= snd (ShapeDrawer_render d h img ann labels)).

End Specification.

(** ** The instance a construction yields, and kinds of calls *)

Section Derived.
Context `{cv : OpenCV} `{otx : OTX}.

(** The six attributes as the arguments of [__init__] determine them. *)
Definition configured (window_name_arg : option string)
    (show_count_arg is_one_label_arg no_show_arg : bool)
    (delay_arg : option Z) (output_arg : option string) : Visualizer :=
  {| window_name :=
       match window_name_arg with
       | None => "Window"
       | Some n => n
       end;
     shape_drawer :=
       {| show_count := show_count_arg; is_one_label := is_one_label_arg |};
     delay :=
       Some (match delay_arg with
             | None => 1%Z
             | Some given => given
             end);
     no_show := no_show_arg;
     output := output_arg;
     capture_window := None |}.

(** A call, without its arguments. *)
Inductive CallKind : Type :=
| KMonitors
| KWindow
| KConvert
| KRender
| KShow
| KWrite
| KPoll
| KStreamer
| KSleep.

Definition kind (e : Event) : CallKind :=
  match e with
  | EGetMonitors => KMonitors
  | ENamedWindow _ _ | EResizeWindow _ _ _ | EMoveWindow _ _ _ => KWindow
  | ECvtColor _ _ => KConvert
  | EShapeDraw _ _ _ _ => KRender
  | EImshow _ _ _ => KShow
  | EImwrite _ _ => KWrite
  | EWaitKey _ => KPoll
  | EStreamerGetType | EStreamerFps => KStreamer
  | ESleep _ => KSleep
  end.

(** The window a display call addresses. *)
Definition window_of (e : Event) : option string :=
  match e with
  | ENamedWindow n _ | EResizeWindow n _ _ | EMoveWindow n _ _
  | EImshow n _ _ => Some n
  | _ => None
  end.

(** How often a trace asks a streamer for its rate. *)
Fixpoint fps_calls (t : list Event) : nat :=
  match t with
  | [] => 0
  | EStreamerFps :: rest => S (fps_calls rest)
  | _ :: rest => fps_calls rest
  end.

(** The drawers a trace hands images to, with the label lists. *)
Fixpoint renders (t : list Event) : list (ShapeDrawer * list LabelEntity) :=
  match t with
  | [] => []
  | EShapeDraw d _ _ labels :: rest => (d, labels) :: renders rest
  | _ :: rest => renders rest
  end.

End Derived.

(** ** Properties *)

Ltac unfold_calls :=
  cbv [Visualizer.__init__ Visualizer.draw Visualizer.show Visualizer.is_quit
       Visualizer.video_delay screeninfo.get_monitors cv2.namedWindow
       cv2.resizeWindow cv2.moveWindow cv2.cvtColor cv2.imshow cv2.imwrite
       cv2.waitKey time.sleep streamer.get_type streamer.fps
       shape_drawer_api.draw bind ret raise lift getattr setattr on_world ask].

Section Properties.
Context `{cv : OpenCV} `{otx : OTX}.

Lemma sleeps_app (t u : list Event) : sleeps (t ++ u) = sleeps t ++ sleeps u.
Proof.
  induction t as [|e t IH]; [reflexivity|].
  destruct e; simpl; rewrite ?IH; reflexivity.
Qed.

Lemma conversions_app (t u : list Event) :
  conversions (t ++ u) = conversions t ++ conversions u.
Proof.
  induction t as [|e t IH]; [reflexivity|].
  destruct e; simpl; rewrite ?IH; reflexivity.
Qed.

(** [Py.contains] is Python's substring test: it holds exactly of the
    strings that can be cut into a head, the sought string and a tail. *)
Lemma prefix_splits (sub s : string) :
  String.prefix sub s = true <-> exists tl : string, s = String.append sub tl.
Proof.
  assert (Cons : forall (a : ascii) (u v : string),
             String.append (String a u) v = String a (String.append u v))
    by reflexivity.
  revert s. induction sub as [|a sub IH]; intros s.
  - split; [|destruct s; reflexivity]. intros _. exists s. reflexivity.
  - destruct s as [|b s]; simpl.
    + split; [discriminate|]. intros [tl E]. rewrite Cons in E. discriminate.
    + destruct (ascii_dec a b) as [->|Diff].
      * rewrite IH. split; intros [tl E]; exists tl; rewrite Cons in *;
          congruence.
      * split; [discriminate|]. intros [tl E]. rewrite Cons in E. congruence.
Qed.

Lemma contains_splits (sub s : string) :
  Py.contains sub s = true
  <-> exists hd tl : string, s = String.append hd (String.append sub tl).
Proof.
  assert (Cons : forall (a : ascii) (u v : string),
             String.append (String a u) v = String a (String.append u v))
    by reflexivity.
  assert (Nil : forall v : string, String.append EmptyString v = v)
    by reflexivity.
  induction s as [|c s IH].
  - change (Py.contains sub EmptyString)
      with (String.prefix sub EmptyString || false).
    rewrite orb_false_r, prefix_splits. split.
    + intros [tl E]. exists EmptyString, tl. exact E.
    + intros [hd [tl E]]. destruct hd; [eauto|].
      rewrite Cons in E. discriminate.
  - change (Py.contains sub (String c s))
      with (String.prefix sub (String c s) || Py.contains sub s).
    rewrite orb_true_iff, prefix_splits, IH. split.
    + intros [[tl E]|[hd [tl E]]].
      * exists EmptyString, tl. exact E.
      * exists (String c hd), tl. rewrite Cons. congruence.
    + intros [hd [tl E]]. destruct hd as [|c' hd].
      * left. rewrite Nil in E. eauto.
      * right. rewrite Cons in E. exists hd, tl. congruence.
Qed.

Lemma ord_q : Py.ord "q" = 113%Z.
Proof. reflexivity. Qed.

(** C3.  A visualizer whose display is suppressed ([no_show] true): for
    every image, elapsed time and streamer, [show] returns with the
    whole state as it was (nothing rendered, no file written),
    [is_quit] returns [False] with the state as it was (no key poll),
    and [video_delay] returns with the state as it was (no sleep and no
    call to the streamer). *)
Theorem suppressed_display_is_silent
    (s : State) (image : ref) (elapsed_time : float) (st : BaseStreamer) :
  no_show (self s) = true ->
  Visualizer.show image s = (Ok tt, s)
  /\ Visualizer.is_quit s = (Ok false, s)
  /\ Visualizer.video_delay elapsed_time st s = (Ok tt, s).
Proof.
  intros Hidden. destruct s as [v w]. simpl in Hidden.
  unfold_calls. simpl. rewrite Hidden. simpl. auto.
Qed.

Lemma emit_emit (a b : list Event) (w : World) :
  emit b (emit a w) = emit (a ++ b) w.
Proof. unfold emit, with_trace. simpl. rewrite <- app_assoc. reflexivity. Qed.

(** C1.  Display not suppressed.  When the string form of
    [streamer.get_type()] contains ["VIDEO"], [video_delay] asks the
    streamer for its type and its rate and computes
    [target_frame_time = 1 / fps]; given that quotient it calls
    [time.sleep (target_frame_time - elapsed_time)] exactly when
    [elapsed_time < target_frame_time] and makes no further call
    otherwise (a division that raises ends the call there, which is
    C9).  When the string form does not contain ["VIDEO"], the only
    call is the one to [get_type]: no sleep, whatever the elapsed
    time. *)
Theorem video_delay_paces_video
    (s : State) (elapsed_time : float) (st : BaseStreamer) :
  no_show (self s) = false ->
  (Py.contains "VIDEO" (str (get_type st)) = true ->
   Visualizer.video_delay elapsed_time st s =
     match Py.truediv 1%float (fps st) with
     | Ok target_frame_time =>
         (Ok tt,
          {| self := self s;
             world :=
               emit ([EStreamerGetType; EStreamerFps]
                     ++ (if PrimFloat.ltb elapsed_time target_frame_time
                         then [ESleep (PrimFloat.sub target_frame_time
                                         elapsed_time)]
                         else []))
                    (world s) |})
     | Raised e =>
         (Raised e,
          {| self := self s;
             world := emit [EStreamerGetType; EStreamerFps] (world s) |})
     end)
  /\ (Py.contains "VIDEO" (str (get_type st)) = false ->
      Visualizer.video_delay elapsed_time st s =
        (Ok tt, {| self := self s; world := emit [EStreamerGetType] (world s) |})
      /\ sleeps (trace (world (snd (Visualizer.video_delay elapsed_time st s))))
         = sleeps (trace (world s))).
Proof.
  intros Shown. split.
  - intros Video.
    unfold_calls. rewrite Shown. simpl. rewrite Video.
    destruct (Py.truediv 1 (fps st)) as [target_frame_time|e]; simpl.
    + destruct (PrimFloat.ltb elapsed_time target_frame_time);
        simpl; rewrite !emit_emit; reflexivity.
    + rewrite emit_emit. reflexivity.
  - intros Other.
    assert (Run : Visualizer.video_delay elapsed_time st s =
              (Ok tt, {| self := self s;
                         world := emit [EStreamerGetType] (world s) |})).
    { unfold_calls. rewrite Shown. simpl. rewrite Other. reflexivity. }
    split; [exact Run|].
    rewrite Run. simpl. rewrite sleeps_app. simpl. apply app_nil_r.
Qed.

(** C9.  Display not suppressed, a video streamer whose [fps()] is zero:
    [video_delay] ends with [ZeroDivisionError], which it does not
    catch, after the two calls to the streamer and without any call to
    [time.sleep]. *)
Theorem video_delay_zero_fps
    (s : State) (elapsed_time : float) (st : BaseStreamer) :
  no_show (self s) = false ->
  Py.contains "VIDEO" (str (get_type st)) = true ->
  PrimFloat.eqb (fps st) 0%float = true ->
  Visualizer.video_delay elapsed_time st s =
    (Raised Py.ZeroDivisionError,
     {| self := self s;
        world := emit [EStreamerGetType; EStreamerFps] (world s) |})
  /\ sleeps (trace (world (snd (Visualizer.video_delay elapsed_time st s))))
     = sleeps (trace (world s)).
Proof.
  intros Shown Video Rate.
  assert (Run : Visualizer.video_delay elapsed_time st s =
            (Raised Py.ZeroDivisionError,
             {| self := self s;
                world := emit [EStreamerGetType; EStreamerFps] (world s) |})).
  { unfold_calls. rewrite Shown. simpl. rewrite Video.
    unfold Py.truediv. rewrite Rate. simpl. rewrite emit_emit. reflexivity. }
  split; [exact Run|].
  rewrite Run. simpl. rewrite sleeps_app. simpl. apply app_nil_r.
Qed.

(** C4.  Display not suppressed: [is_quit] makes one call
    [cv2.waitKey(delay)] and returns [True] if and only if the key code
    the poll gives is [ord("q")], that is 113; any other code, and the
    no-key result [-1], give [False]. *)
Theorem is_quit_polls_for_q (s : State) (d : Z) :
  no_show (self s) = false ->
  delay (self s) = Some d ->
  exists (b : bool) (s' : State),
    Visualizer.is_quit s = (Ok b, s')
    /\ (b = true <-> cv2.poll (world s) = Py.ord "q")
    /\ Py.ord "q" = 113%Z
    /\ (keys (world s) = [] -> b = false)
    /\ trace (world s') = trace (world s) ++ [EWaitKey d]
    /\ self s' = self s.
Proof.
  intros Shown Wait.
  exists (Z.eqb (Py.ord "q") (cv2.poll (world s))). eexists.
  split.
  { unfold_calls. rewrite Shown, Wait. simpl. reflexivity. }
  split; [|split; [exact ord_q|split; [|split; reflexivity]]].
  - rewrite Z.eqb_eq. split; intros E; symmetry; exact E.
  - intros NoKey. unfold cv2.poll. rewrite NoKey. reflexivity.
Qed.

(** C10.  [draw] accepts [meta] and never reads it: any two values of
    [meta], [None] included, give the same result and the same state. *)
Theorem draw_ignores_meta
    (image : ref) (annotation : AnnotationSceneEntity)
    (meta1 meta2 : option dict) (s : State) :
  Visualizer.draw image annotation meta1 s
  = Visualizer.draw image annotation meta2 s.
Proof. reflexivity. Qed.

(** Running [draw] step by step gives the state [draw_spec] names. *)
Lemma draw_runs
    (image : ref) (annotation : AnnotationSceneEntity)
    (meta : option dict) (s : State) :
  Visualizer.draw image annotation meta s = draw_spec image annotation s.
Proof.
  unfold draw_spec, converted_image, cv2.pixels. unfold_calls.
  destruct s as [v [mon hp fl ks tr]]. simpl.
  unfold emit, with_heap, with_trace. simpl.
  rewrite <- app_assoc. reflexivity.
Qed.

(** C5.  [draw] is the composition its specification describes: the
    image is converted with [COLOR_RGB2BGR], the converted image and
    the annotation go to the drawer with the label list [[]], and the
    drawer's result is returned; the attributes of the instance are
    the same afterwards. *)
Theorem draw_is_convert_then_render
    (image : ref) (annotation : AnnotationSceneEntity)
    (meta : option dict) (s : State) :
  Visualizer.draw image annotation meta s = draw_spec image annotation s
  /\ self (snd (Visualizer.draw image annotation meta s)) = self s.
Proof.
  split; [apply draw_runs|]. rewrite draw_runs. reflexivity.
Qed.

(** C6.  With a drawer that keeps its side of the contract, and an
    input image that is a live array: [draw] makes exactly one
    [cv2.cvtColor] call, with [COLOR_RGB2BGR]; the pixels of the
    caller's array are the same afterwards; and the array returned is
    not the caller's. *)
Theorem draw_leaves_input_alone
    (image : ref) (annotation : AnnotationSceneEntity)
    (meta : option dict) (s : State) :
  drawer_keeps_frame ->
  image < length (heap (world s)) ->
  exists (out : ref) (s' : State),
    Visualizer.draw image annotation meta s = (Ok out, s')
    /\ conversions (trace (world s'))
       = conversions (trace (world s)) ++ [COLOR_RGB2BGR]
    /\ heap (world s') !! image = heap (world s) !! image
    /\ out <> image.
Proof.
  intros Frame Live.
  rewrite draw_runs.
  set (h := heap (world s)) in *.
  set (h1 := h ++ [converted_image (world s) image]).
  assert (Len : length h1 = S (length h)).
  { unfold h1. rewrite length_app. simpl. lia. }
  destruct (Frame (shape_drawer (self s)) h1 (length h) annotation [])
    as [Kept Fresh]; [lia|].
  eexists. eexists. split; [reflexivity|].
  unfold draw_spec. simpl. fold h. fold h1.
  split; [|split].
  - rewrite conversions_app. reflexivity.
  - rewrite Kept by (unfold ref in *; lia).
    unfold h1. apply lookup_app_l. exact Live.
  - unfold ref in *. lia.
Qed.

(** With the display not suppressed [show] does not get past its
    [cv2.imshow] call: the call carries a third positional argument. *)
Lemma show_stops_at_imshow (s : State) (image : ref) :
  no_show (self s) = false ->
  Visualizer.show image s =
    (Raised Py.Cv2Error,
     {| self := self s;
        world :=
          emit [EImshow (window_name (self s)) image
                  [Z.lor WINDOW_GUI_NORMAL WINDOW_AUTOSIZE]]
               (world s) |}).
Proof.
  intros Shown. unfold_calls. rewrite Shown. reflexivity.
Qed.

(** What [__init__] does to the world, whatever the flags: with a
    monitor to read, it returns after creating, resizing and moving the
    window. *)
Lemma init_window_calls
    (wn : option string) (sc iol ns : bool) (d : option Z)
    (out : option string) (s : State) (m : Monitor.t) (ms : list Monitor.t) :
  monitors (world s) = m :: ms ->
  let name := match wn with None => "Window" | Some n => n end in
  exists v : Visualizer,
    Visualizer.__init__ wn sc iol ns d out s =
      (Ok tt,
       {| self := v;
          world :=
            emit [EGetMonitors;
                  ENamedWindow name WINDOW_GUI_NORMAL;
                  EResizeWindow name 960 720;
                  EMoveWindow name (Monitor.x m + 1200) (Monitor.y m + 300)]
                 (world s) |})
    /\ no_show v = ns.
Proof.
  intros Mon name.
  destruct d; eexists;
    (split;
     [unfold_calls; unfold Py.getitem; simpl; rewrite Mon; simpl;
      rewrite !emit_emit; reflexivity
     |reflexivity]).
Qed.

(** Without a monitor the enumeration itself raises. *)
Lemma init_without_monitor
    (wn : option string) (sc iol ns : bool) (d : option Z)
    (out : option string) (s : State) :
  monitors (world s) = [] ->
  fst (Visualizer.__init__ wn sc iol ns d out s) = Raised Py.ScreenInfoError.
Proof.
  intros Mon. unfold_calls. unfold Py.getitem.
  destruct d; simpl; rewrite Mon; reflexivity.
Qed.

(** C8.  [__init__] stores the delay 1 when the argument is [None] and
    the argument itself otherwise; a call with the delay 1 spelled out
    and a call without a delay give the same result and the same state;
    and with a monitor to read the constructor returns. *)
Theorem init_delay_default
    (wn : option string) (sc iol ns : bool) (d : option Z)
    (out : option string) (s : State) :
  delay (self (snd (Visualizer.__init__ wn sc iol ns d out s)))
  = Some (match d with None => 1%Z | Some given => given end)
  /\ Visualizer.__init__ wn sc iol ns None out s
     = Visualizer.__init__ wn sc iol ns (Some 1%Z) out s
  /\ (monitors (world s) <> [] ->
      fst (Visualizer.__init__ wn sc iol ns d out s) = Ok tt).
Proof.
  split; [|split].
  - unfold_calls. unfold Py.getitem.
    destruct d; simpl; destruct (monitors (world s)); reflexivity.
  - unfold_calls. unfold Py.getitem. simpl.
    destruct (monitors (world s)); reflexivity.
  - intros Mon. destruct (monitors (world s)) as [|m ms] eqn:E; [contradiction|].
    destruct (init_window_calls wn sc iol ns d out s m ms E) as [v [Run _]].
    rewrite Run. reflexivity.
Qed.

End Properties.

(** ** Behaviour beyond the specification's sentences *)

Ltac split_state s :=
  let v := fresh "v" in
  let w := fresh "w" in
  destruct s as [v w]; destruct v; destruct w; simpl in *.


Section Behaviour.
Context `{cv : OpenCV} `{otx : OTX}.

Lemma bind_ok {A B : Type} (m : M A) (k : A -> M B) (s s' : State) (a : A) :
  m s = (Ok a, s') -> bind m k s = k a s'.
Proof. intros Run. unfold bind. rewrite Run. reflexivity. Qed.

Lemma kinds_app (t u : list Event) : map kind (t ++ u) = map kind t ++ map kind u.
Proof. apply map_app. Qed.

Lemma fps_calls_app (t u : list Event) :
  fps_calls (t ++ u) = fps_calls t + fps_calls u.
Proof.
  induction t as [|e t IH]; [reflexivity|].
  destruct e; simpl; rewrite ?IH; reflexivity.
Qed.

Lemma renders_app (t u : list Event) : renders (t ++ u) = renders t ++ renders u.
Proof.
  induction t as [|e t IH]; [reflexivity|].
  destruct e; simpl; rewrite ?IH; reflexivity.
Qed.

(** A construction that finds a monitor, in full. *)
Lemma init_runs
    (wn : option string) (sc iol ns : bool) (d : option Z)
    (out : option string) (s : State) (m : Monitor.t) (ms : list Monitor.t) :
  monitors (world s) = m :: ms ->
  Visualizer.__init__ wn sc iol ns d out s =
    (Ok tt,
     {| self := configured wn sc iol ns d out;
        world :=
          emit [EGetMonitors;
                ENamedWindow (window_name (configured wn sc iol ns d out))
                  WINDOW_GUI_NORMAL;
                EResizeWindow (window_name (configured wn sc iol ns d out))
                  960 720;
                EMoveWindow (window_name (configured wn sc iol ns d out))
                  (Monitor.x m + 1200) (Monitor.y m + 300)]
               (world s) |}).
Proof.
  intros Mon. unfold_calls. unfold Py.getitem, configured.
  destruct d; simpl; rewrite Mon; simpl; rewrite !emit_emit; reflexivity.
Qed.

(** X1.  Without a monitor the constructor cannot finish, whatever its
    arguments, [no_show=True] included: the enumeration of the monitors
    raises [ScreenInfoError], so the indexing [[0]] is not reached and no
    window call is made.  The attributes have been assigned by then. *)
Theorem init_needs_a_monitor
    (wn : option string) (sc iol ns : bool) (d : option Z)
    (out : option string) (s : State) :
  monitors (world s) = [] ->
  Visualizer.__init__ wn sc iol ns d out s =
    (Raised Py.ScreenInfoError,
     {| self := configured wn sc iol ns d out;
        world := emit [EGetMonitors] (world s) |}).
Proof.
  intros Mon. unfold_calls. unfold Py.getitem, configured.
  destruct d; simpl; rewrite Mon; reflexivity.
Qed.

(** X2.  With at least one monitor the constructor returns.  The window
    is created, sized 960x720 and moved to the first monitor's origin
    plus (1200, 300), all three calls under the stored window name; the
    monitors after the first play no part; arrays, files and pending
    keys are as before; and the instance holds exactly what the
    arguments determine, nothing of what it held before. *)
Theorem init_places_window
    (wn : option string) (sc iol ns : bool) (d : option Z)
    (out : option string) (s : State) (m : Monitor.t) (ms : list Monitor.t) :
  monitors (world s) = m :: ms ->
  exists s' : State,
    Visualizer.__init__ wn sc iol ns d out s = (Ok tt, s')
    /\ self s' = configured wn sc iol ns d out
    /\ trace (world s')
       = trace (world s)
         ++ [EGetMonitors;
             ENamedWindow (window_name (self s')) WINDOW_GUI_NORMAL;
             EResizeWindow (window_name (self s')) 960 720;
             EMoveWindow (window_name (self s'))
               (Monitor.x m + 1200) (Monitor.y m + 300)]
    /\ heap (world s') = heap (world s)
    /\ files (world s') = files (world s)
    /\ keys (world s') = keys (world s)
    /\ monitors (world s') = monitors (world s).
Proof.
  intros Mon. eexists. split; [apply (init_runs _ _ _ _ _ _ _ m ms Mon)|].
  simpl. repeat split; reflexivity.
Qed.

(** X3.  After construction the configuration is fixed: [show],
    [is_quit] and [video_delay] leave every attribute of the instance
    as it was, in every state and whether they return or raise. *)
Theorem methods_keep_configuration
    (s : State) (image : ref) (elapsed_time : float) (st : BaseStreamer) :
  self (snd (Visualizer.show image s)) = self s
  /\ self (snd (Visualizer.is_quit s)) = self s
  /\ self (snd (Visualizer.video_delay elapsed_time st s)) = self s.
Proof.
  split; [|split].
  - split_state s. unfold_calls. simpl.
    destruct no_show0; simpl; [reflexivity|].
    destruct output0 as [[|c path]|]; reflexivity.
  - split_state s. unfold_calls. simpl.
    destruct no_show0; simpl; [reflexivity|].
    destruct delay0; reflexivity.
  - split_state s. unfold_calls. simpl.
    destruct no_show0; simpl; [reflexivity|].
    destruct (Py.contains "VIDEO" (str (get_type st))); simpl; [|reflexivity].
    destruct (Py.truediv 1 (fps st)) as [target|e]; simpl; [|reflexivity].
    destruct (PrimFloat.ltb elapsed_time target); reflexivity.
Qed.

(** X4.  What each method leaves alone in the world, in every state:
    [show] never changes an array, the pending keys or the monitors;
    [is_quit] never changes an array, a file or the monitors;
    [video_delay] changes nothing but the trace of calls. *)
Theorem methods_leave_the_rest
    (s : State) (image : ref) (elapsed_time : float) (st : BaseStreamer) :
  (heap (world (snd (Visualizer.show image s))) = heap (world s)
   /\ keys (world (snd (Visualizer.show image s))) = keys (world s)
   /\ monitors (world (snd (Visualizer.show image s))) = monitors (world s))
  /\ (heap (world (snd (Visualizer.is_quit s))) = heap (world s)
      /\ files (world (snd (Visualizer.is_quit s))) = files (world s)
      /\ monitors (world (snd (Visualizer.is_quit s))) = monitors (world s))
  /\ (heap (world (snd (Visualizer.video_delay elapsed_time st s)))
        = heap (world s)
      /\ files (world (snd (Visualizer.video_delay elapsed_time st s)))
        = files (world s)
      /\ keys (world (snd (Visualizer.video_delay elapsed_time st s)))
        = keys (world s)
      /\ monitors (world (snd (Visualizer.video_delay elapsed_time st s)))
        = monitors (world s)).
Proof.
  split; [|split].
  - split_state s. unfold_calls. simpl.
    destruct no_show0; simpl; [auto|].
    destruct output0 as [[|c path]|]; simpl; auto.
  - split_state s. unfold_calls. simpl.
    destruct no_show0; simpl; [auto|].
    destruct delay0; simpl; auto.
  - split_state s. unfold_calls. simpl.
    destruct no_show0; simpl; [auto|].
    destruct (Py.contains "VIDEO" (str (get_type st))); simpl; [|auto].
    destruct (Py.truediv 1 (fps st)) as [target|e]; simpl; [|auto].
    destruct (PrimFloat.ltb elapsed_time target); simpl; auto.
Qed.


(** X6.  With the display not suppressed [show] never returns: for
    every image and every [output], its [cv2.imshow] call carries a
    third positional argument and is rejected with [cv2.error], which
    [show] does not catch.  That call is the only one made: no
    [cv2.imwrite] follows, and every file is as it was. *)
Theorem show_raises_when_displayed (s : State) (image : ref) :
  no_show (self s) = false ->
  fst (Visualizer.show image s) = Raised Py.Cv2Error
  /\ trace (world (snd (Visualizer.show image s)))
     = trace (world s)
       ++ [EImshow (window_name (self s)) image
             [Z.lor WINDOW_GUI_NORMAL WINDOW_AUTOSIZE]]
  /\ files (world (snd (Visualizer.show image s))) = files (world s).
Proof.
  intros Shown. rewrite (show_stops_at_imshow s image Shown).
  repeat split; reflexivity.
Qed.


(** X9.  The frame is addressed to the window the constructor made.
    After a construction with the display not suppressed, the
    [cv2.imshow] call of [show] names the same window as the three calls
    that created, sized and placed it: the given name, or ["Window"]
    when none was given.  The call is the rejected one of X6, so [show]
    ends with [cv2.error]. *)
Theorem constructed_show_uses_created_window
    (wn : option string) (sc iol : bool) (d : option Z)
    (out : option string) (s : State) (m : Monitor.t) (ms : list Monitor.t)
    (image : ref) :
  monitors (world s) = m :: ms ->
  exists s' : State,
    (Visualizer.__init__ wn sc iol false d out ;; Visualizer.show image) s
    = (Raised Py.Cv2Error, s')
    /\ omap window_of (trace (world s'))
       = omap window_of (trace (world s))
         ++ replicate 4 (match wn with None => "Window" | Some n => n end).
Proof.
  intros Mon.
  rewrite (bind_ok _ _ _ _ _ (init_runs wn sc iol false d out s m ms Mon)).
  rewrite show_stops_at_imshow by reflexivity.
  eexists. split; [reflexivity|].
  simpl. rewrite !omap_app. simpl. rewrite <- app_assoc. reflexivity.
Qed.

(** X10.  The drawing flags given at construction are the ones every
    [draw] uses, and [draw] is not gated by [no_show]: after a
    construction with any arguments, [draw] returns what a drawer built
    from [show_count] and [is_one_label] returns for the converted image
    and an empty label list. *)
Theorem constructed_draw_uses_configured_drawer
    (wn : option string) (sc iol ns : bool) (d : option Z)
    (out : option string) (s : State) (m : Monitor.t) (ms : list Monitor.t)
    (image : ref) (annotation : AnnotationSceneEntity) (meta : option dict) :
  monitors (world s) = m :: ms ->
  exists s' : State,
    (Visualizer.__init__ wn sc iol ns d out
     ;; Visualizer.draw image annotation meta) s
    = (Ok (snd (ShapeDrawer_render
                  {| show_count := sc; is_one_label := iol |}
                  (heap (world s) ++ [converted_image (world s) image])
                  (length (heap (world s))) annotation [])),
       s')
    /\ renders (trace (world s'))
       = renders (trace (world s))
         ++ [({| show_count := sc; is_one_label := iol |}, [])].
Proof.
  intros Mon.
  rewrite (bind_ok _ _ _ _ _ (init_runs wn sc iol ns d out s m ms Mon)).
  rewrite draw_runs. unfold draw_spec, converted_image, cv2.pixels. simpl.
  eexists. split; [reflexivity|].
  simpl. rewrite !renders_app. simpl. rewrite app_nil_r. reflexivity.
Qed.

(** X11.  With a drawer that keeps its side of the contract, [draw]
    changes no array that existed before the call, whichever image it is
    given. *)
Theorem draw_keeps_every_live_array
    (image : ref) (annotation : AnnotationSceneEntity)
    (meta : option dict) (s : State) (r : ref) :
  drawer_keeps_frame ->
  r < length (heap (world s)) ->
  heap (world (snd (Visualizer.draw image annotation meta s))) !! r
  = heap (world s) !! r.
Proof.
  intros Frame Live. rewrite draw_runs. unfold draw_spec. simpl.
  set (h := heap (world s)) in *.
  set (h1 := h ++ [converted_image (world s) image]).
  assert (Len : length h1 = S (length h)).
  { unfold h1. rewrite length_app. simpl. lia. }
  destruct (Frame (shape_drawer (self s)) h1 (length h) annotation [])
    as [Kept _]; [lia|].
  rewrite Kept by (unfold ref in *; lia).
  unfold h1. apply lookup_app_l. exact Live.
Qed.

(** X12.  Display not suppressed.  [video_delay] asks the streamer for
    its rate exactly when the string form of the type can be cut into a
    head, ["VIDEO"] and a tail (the test is a case-sensitive substring
    test).  For every other type the rate is never asked, so the call
    returns whatever [fps()] would have answered, zero included. *)
Theorem video_delay_asks_rate_of_video_only
    (s : State) (elapsed_time : float) (st : BaseStreamer) :
  no_show (self s) = false ->
  ((exists hd tl : string,
      str (get_type st) = String.append hd (String.append "VIDEO" tl)) ->
   fps_calls (trace (world (snd (Visualizer.video_delay elapsed_time st s))))
   = S (fps_calls (trace (world s))))
  /\ (~ (exists hd tl : string,
          str (get_type st) = String.append hd (String.append "VIDEO" tl)) ->
      fst (Visualizer.video_delay elapsed_time st s) = Ok tt
      /\ fps_calls
           (trace (world (snd (Visualizer.video_delay elapsed_time st s))))
         = fps_calls (trace (world s))).
Proof.
  intros Shown. split.
  - intros Cut. apply contains_splits in Cut.
    unfold_calls. rewrite Shown. simpl. rewrite Cut.
    destruct (Py.truediv 1 (fps st)) as [target|e]; simpl.
    + destruct (PrimFloat.ltb elapsed_time target); simpl;
        rewrite !fps_calls_app; simpl; lia.
    + rewrite !fps_calls_app. simpl. lia.
  - intros NoCut.
    assert (Other : Py.contains "VIDEO" (str (get_type st)) = false).
    { destruct (Py.contains "VIDEO" (str (get_type st))) eqn:E;
        [|reflexivity].
      apply contains_splits in E. contradiction. }
    unfold_calls. rewrite Shown. simpl. rewrite Other. simpl.
    split; [reflexivity|]. rewrite fps_calls_app. simpl. lia.
Qed.

(** X13.  A quit request is not remembered.  With the display not
    suppressed, two successive calls of [is_quit] each make their own
    poll and each answer for the key of that poll alone, consuming one
    pending key apiece: a [q] seen by the first call does not make the
    second one answer [True]. *)
Theorem is_quit_does_not_latch (s : State) (d k1 k2 : Z) (rest : list Z) :
  no_show (self s) = false ->
  delay (self s) = Some d ->
  keys (world s) = k1 :: k2 :: rest ->
  (b1 <- Visualizer.is_quit ;; b2 <- Visualizer.is_quit ;; ret (b1, b2)) s
  = (Ok (Z.eqb (Py.ord "q") k1, Z.eqb (Py.ord "q") k2),
     {| self := self s;
        world := with_keys rest (emit [EWaitKey d; EWaitKey d] (world s)) |}).
Proof.
  intros Shown Wait Keys. split_state s. subst.
  unfold_calls. unfold cv2.poll, emit, with_keys, with_trace. simpl.
  rewrite <- app_assoc. reflexivity.
Qed.

(** X14.  Which attributes a method reads.  In the same world, [draw]
    gives the same result and the same world for any two instances with
    the same drawer; [is_quit] for any two with the same [no_show] and
    [delay]; [video_delay] for any two with the same [no_show]; [show]
    for any two with the same [no_show], [window_name] and [output]. *)
Theorem methods_read_only_their_attributes
    (s1 s2 : State) (image : ref) (annotation : AnnotationSceneEntity)
    (meta : option dict) (elapsed_time : float) (st : BaseStreamer) :
  world s1 = world s2 ->
  (shape_drawer (self s1) = shape_drawer (self s2) ->
   fst (Visualizer.draw image annotation meta s1)
   = fst (Visualizer.draw image annotation meta s2)
   /\ world (snd (Visualizer.draw image annotation meta s1))
      = world (snd (Visualizer.draw image annotation meta s2)))
  /\ (no_show (self s1) = no_show (self s2) ->
      delay (self s1) = delay (self s2) ->
      fst (Visualizer.is_quit s1) = fst (Visualizer.is_quit s2)
      /\ world (snd (Visualizer.is_quit s1))
         = world (snd (Visualizer.is_quit s2)))
  /\ (no_show (self s1) = no_show (self s2) ->
      fst (Visualizer.video_delay elapsed_time st s1)
      = fst (Visualizer.video_delay elapsed_time st s2)
      /\ world (snd (Visualizer.video_delay elapsed_time st s1))
         = world (snd (Visualizer.video_delay elapsed_time st s2)))
  /\ (no_show (self s1) = no_show (self s2) ->
      window_name (self s1) = window_name (self s2) ->
      output (self s1) = output (self s2) ->
      fst (Visualizer.show image s1) = fst (Visualizer.show image s2)
      /\ world (snd (Visualizer.show image s1))
         = world (snd (Visualizer.show image s2))).
Proof.
  intros SameWorld. split; [|split; [|split]].
  - intros Drawer. rewrite !draw_runs. unfold draw_spec, converted_image.
    simpl. rewrite SameWorld, Drawer. split; reflexivity.
  - intros Hidden Wait. destruct s1 as [v1 w1], s2 as [v2 w2].
    simpl in *. subst w2. unfold_calls. simpl. rewrite Hidden.
    destruct (no_show v2); simpl; [split; reflexivity|].
    rewrite Wait. destruct (delay v2); split; reflexivity.
  - intros Hidden. destruct s1 as [v1 w1], s2 as [v2 w2].
    simpl in *. subst w2. unfold_calls. simpl. rewrite Hidden.
    destruct (no_show v2); simpl; [split; reflexivity|].
    destruct (Py.contains "VIDEO" (str (get_type st))); simpl;
      [|split; reflexivity].
    destruct (Py.truediv 1 (fps st)) as [target|e]; simpl;
      [|split; reflexivity].
    destruct (PrimFloat.ltb elapsed_time target); split; reflexivity.
  - intros Hidden Name Out. destruct s1 as [v1 w1], s2 as [v2 w2].
    simpl in *. subst w2. unfold_calls. simpl. rewrite Hidden.
    destruct (no_show v2); simpl; [split; reflexivity|].
    rewrite Name. split; reflexivity.
Qed.

End Behaviour.

(** ** The methods on explicit inputs *)

Section Runs.
#[local] Existing Instance Sample.opencv4.
#[local] Existing Instance Sample.marker.
Import Sample.

Lemma marker_keeps_frame : drawer_keeps_frame.
Proof.
  intros d h img ann labels Live. simpl. split.
  - intros r _ Other. apply list_lookup_insert_ne. congruence.
  - left. reflexivity.
Qed.

Example init_defaults :
  Visualizer.__init__ None false false false None None fresh
  = (Ok tt,
     {| self := plain;
        world :=
          emit [EGetMonitors; ENamedWindow "Window" 16;
                EResizeWindow "Window" 960 720;
                EMoveWindow "Window" 1200 300] world0 |}).
Proof. reflexivity. Qed.

Example init_no_monitor :
  fst (Visualizer.__init__ None false false false None None
         {| self := blank;
            world := {| monitors := []; heap := []; files := ∅; locked := [];
                        keys := []; trace := [] |} |})
  = Raised Py.ScreenInfoError.
Proof. reflexivity. Qed.

Example draw_sample :
  Visualizer.draw 0 [(0, 1)] None shown
  = (Ok 1,
     {| self := plain;
        world :=
          with_heap [[[[1; 2; 3]; [4; 5; 6]]];
                     [[[3; 2; 1]; [255; 255; 255]]]]%Z
            (emit [ECvtColor 0 4; EShapeDraw (shape_drawer plain) 1 [(0, 1)] []]
                  world0) |}).
Proof. reflexivity. Qed.

Example is_quit_on_q :
  fst (Visualizer.is_quit
         {| self := plain; world := with_keys [113; 81]%Z world0 |})
  = Ok true.
Proof. reflexivity. Qed.

Example is_quit_on_capital_q :
  fst (Visualizer.is_quit
         {| self := plain; world := with_keys [81]%Z world0 |})
  = Ok false.
Proof. reflexivity. Qed.

Example is_quit_without_key : fst (Visualizer.is_quit shown) = Ok false.
Proof. reflexivity. Qed.

Example video_delay_fast_frame :
  sleeps (trace (world (snd (Visualizer.video_delay ten_ms video30 shown))))
  = [PrimFloat.sub (PrimFloat.div 1 30) ten_ms].
Proof. reflexivity. Qed.

Example video_delay_slow_frame :
  Visualizer.video_delay 1%float video30 shown
  = (Ok tt,
     {| self := plain;
        world := emit [EStreamerGetType; EStreamerFps] world0 |}).
Proof. reflexivity. Qed.

Example show_stops_before_recording :
  fst (Visualizer.show 0 saving) = Raised Py.Cv2Error.
Proof. reflexivity. Qed.

(** What [cv2.imwrite] would do if it were reached: write the encoding
    and answer [True]; answer [False] and write nothing when the path is
    locked; raise when the name has no encoder. *)
Example imwrite_writes :
  let run := cv2.imwrite (Some "out.png") 0 saving in
  fst run = Ok true
  /\ files (world (snd run)) !! "out.png" = Some [1; 2; 3; 4; 5; 6]%Z.
Proof. split; reflexivity. Qed.

Example imwrite_refused :
  let run :=
    cv2.imwrite (Some "out.png") 0
      {| self := recording;
         world := {| monitors := [screen0];
                     heap := [[[[1; 2; 3]; [4; 5; 6]]]]%Z;
                     files := ∅; locked := ["out.png"];
                     keys := []; trace := [] |} |} in
  fst run = Ok false /\ files (world (snd run)) !! "out.png" = None.
Proof. split; reflexivity. Qed.

Example imwrite_without_encoder :
  fst (cv2.imwrite (Some "out.xyz") 0 saving) = Raised Py.Cv2Error.
Proof. reflexivity. Qed.

(** A drawer outside the contract can hand the caller's own array
    back: the contract is what C6 rests on. *)
Example draw_with_careless_drawer :
  fst (@Visualizer.draw opencv4 careless 0 tt None
         {| self := plain; world := world0 |})
  = Ok 0.
Proof. reflexivity. Qed.

(** C2.  The constructor does not look at [no_show]: called with
    [no_show=True] (and a monitor at the origin) it returns after
    creating the window, resizing it to 960x720 and moving it to
    (1200, 300), exactly as it does with [no_show=False]. *)
Theorem init_suppressed_still_opens_window :
  Visualizer.__init__ None false false true None None fresh
  = (Ok tt,
     {| self := headless;
        world :=
          emit [EGetMonitors; ENamedWindow "Window" 16;
                EResizeWindow "Window" 960 720;
                EMoveWindow "Window" 1200 300] world0 |})
  /\ filter is_window_call
       (trace (world (snd (Visualizer.__init__ None false false true None
                             None fresh))))
     = [ENamedWindow "Window" 16; EResizeWindow "Window" 960 720;
        EMoveWindow "Window" 1200 300].
Proof. split; reflexivity. Qed.

(** C7.  [show] does not write the image.  With the display not
    suppressed and an output path configured, over a file that already
    exists, the call ends with [cv2.error] at [cv2.imshow], which is
    given three positional arguments; [cv2.imwrite] on the next line is
    not reached, and the file keeps what it held. *)
Theorem show_never_reaches_imwrite :
  Visualizer.show 0 saving
  = (Raised Py.Cv2Error,
     {| self := recording;
        world := emit [EImshow "Window" 0 [17%Z]] (world saving) |})
  /\ files (world (snd (Visualizer.show 0 saving))) !! "out.png"
     = Some [9; 9]%Z
  /\ files (world saving) !! "out.png" = Some [9; 9]%Z.
Proof. repeat split; reflexivity. Qed.

Lemma video_delay_paces_video_witness :
  no_show (self shown) = false
  /\ (Py.contains "VIDEO" (str (get_type video30)) = true
      /\ Visualizer.video_delay ten_ms video30 shown
         = (Ok tt,
            {| self := plain;
               world :=
                 emit [EStreamerGetType; EStreamerFps;
                       ESleep (PrimFloat.sub (PrimFloat.div 1 30) ten_ms)]
                      world0 |}))
  /\ (Py.contains "VIDEO" (str (get_type camera)) = false
      /\ Visualizer.video_delay ten_ms camera shown
         = (Ok tt,
            {| self := plain; world := emit [EStreamerGetType] world0 |})).
Proof.
  split; [reflexivity|]. split.
  - split; [reflexivity|].
    exact (proj1 (video_delay_paces_video shown ten_ms video30 eq_refl)
             eq_refl).
  - split; [reflexivity|].
    exact (proj1 (proj2 (video_delay_paces_video shown ten_ms camera eq_refl)
                    eq_refl)).
Defined.

Lemma suppressed_display_is_silent_witness :
  no_show (self hidden) = true
  /\ Visualizer.show 0 hidden = (Ok tt, hidden)
  /\ Visualizer.is_quit hidden = (Ok false, hidden)
  /\ Visualizer.video_delay ten_ms video30 hidden = (Ok tt, hidden).
Proof.
  split; [reflexivity|].
  exact (suppressed_display_is_silent hidden 0 ten_ms video30 eq_refl).
Defined.

Lemma is_quit_polls_for_q_witness :
  no_show (self shown) = false
  /\ delay (self shown) = Some 1%Z
  /\ exists (b : bool) (s' : State),
       Visualizer.is_quit shown = (Ok b, s')
       /\ (b = true <-> cv2.poll (world shown) = Py.ord "q")
       /\ Py.ord "q" = 113%Z
       /\ (keys (world shown) = [] -> b = false)
       /\ trace (world s') = trace (world shown) ++ [EWaitKey 1]
       /\ self s' = self shown.
Proof.
  split; [reflexivity|]. split; [reflexivity|].
  exact (is_quit_polls_for_q shown 1%Z eq_refl eq_refl).
Defined.

Lemma draw_leaves_input_alone_witness :
  drawer_keeps_frame
  /\ 0 < length (heap (world shown))
  /\ exists (out : ref) (s' : State),
       Visualizer.draw 0 [(0, 1)] None shown = (Ok out, s')
       /\ conversions (trace (world s'))
          = conversions (trace (world shown)) ++ [COLOR_RGB2BGR]
       /\ heap (world s') !! 0 = heap (world shown) !! 0
       /\ out <> 0.
Proof.
  split; [exact marker_keeps_frame|].
  split; [simpl; lia|].
  apply (draw_leaves_input_alone (otx := marker) 0 [(0, 1)] None shown
           marker_keeps_frame).
  simpl. lia.
Defined.

Lemma init_delay_default_witness :
  monitors (world fresh) <> []
  /\ delay (self (snd (Visualizer.__init__ None false false false (Some 25%Z)
                         None fresh)))
     = Some 25%Z
  /\ Visualizer.__init__ None false false false None None fresh
     = Visualizer.__init__ None false false false (Some 1%Z) None fresh
  /\ fst (Visualizer.__init__ None false false false (Some 25%Z) None fresh)
     = Ok tt.
Proof.
  split; [discriminate|].
  destruct (init_delay_default None false false false (Some 25%Z) None fresh)
    as [Stored [Same Returns]].
  split; [exact Stored|]. split; [exact Same|].
  apply Returns. discriminate.
Defined.

Lemma video_delay_zero_fps_witness :
  no_show (self shown) = false
  /\ Py.contains "VIDEO" (str (get_type
        {| get_type := MkMediaType "VIDEO"; fps := (-0)%float |})) = true
  /\ PrimFloat.eqb (fps {| get_type := MkMediaType "VIDEO";
                           fps := (-0)%float |}) 0%float = true
  /\ Visualizer.video_delay ten_ms
       {| get_type := MkMediaType "VIDEO"; fps := (-0)%float |} shown
     = (Raised Py.ZeroDivisionError,
        {| self := plain;
           world := emit [EStreamerGetType; EStreamerFps] world0 |}).
Proof.
  split; [reflexivity|]. split; [reflexivity|]. split; [reflexivity|].
  exact (proj1 (video_delay_zero_fps shown ten_ms
                  {| get_type := MkMediaType "VIDEO"; fps := (-0)%float |}
                  eq_refl eq_refl eq_refl)).
Defined.

End Runs.

(** ** The further properties on explicit inputs *)

Section BehaviourRuns.
#[local] Existing Instance Sample.opencv4.
#[local] Existing Instance Sample.marker.
Import Sample.

Lemma init_needs_a_monitor_witness :
  monitors
    (world {| self := blank;
              world := {| monitors := []; heap := []; files := ∅; locked := [];
                          keys := []; trace := [] |} |}) = []
  /\ Visualizer.__init__ (Some "Food") true false true (Some 5%Z) None
       {| self := blank;
          world := {| monitors := []; heap := []; files := ∅; locked := [];
                      keys := []; trace := [] |} |}
     = (Raised Py.ScreenInfoError,
        {| self := configured (Some "Food") true false true (Some 5%Z) None;
           world := {| monitors := []; heap := []; files := ∅; locked := [];
                       keys := []; trace := [EGetMonitors] |} |}).
Proof.
  split; [reflexivity|].
  exact (init_needs_a_monitor (Some "Food") true false true (Some 5%Z) None
           {| self := blank;
              world := {| monitors := []; heap := []; files := ∅; locked := [];
                          keys := []; trace := [] |} |} eq_refl).
Defined.

Lemma init_places_window_witness :
  monitors
    (world {| self := recording;
              world := {| monitors := [{| Monitor.x := -1920; Monitor.y := 40 |};
                                       screen0];
                          heap := []; files := ∅; locked := []; keys := [];
                          trace := [] |} |})
  = [{| Monitor.x := -1920; Monitor.y := 40 |}; screen0]
  /\ exists s' : State,
       Visualizer.__init__ (Some "Food") false true false None None
         {| self := recording;
            world := {| monitors := [{| Monitor.x := -1920; Monitor.y := 40 |};
                                     screen0];
                        heap := []; files := ∅; locked := []; keys := [];
                        trace := [] |} |}
       = (Ok tt, s')
       /\ self s' = configured (Some "Food") false true false None None
       /\ trace (world s')
          = [EGetMonitors; ENamedWindow "Food" 16; EResizeWindow "Food" 960 720;
             EMoveWindow "Food" (-720) 340].
Proof.
  split; [reflexivity|].
  destruct (init_places_window (Some "Food") false true false None None
              {| self := recording;
                 world := {| monitors := [{| Monitor.x := -1920;
                                             Monitor.y := 40 |}; screen0];
                             heap := []; files := ∅; locked := []; keys := [];
                             trace := [] |} |}
              {| Monitor.x := -1920; Monitor.y := 40 |} [screen0] eq_refl)
    as [s' [Run [Self [Trace _]]]].
  exists s'. split; [exact Run|]. split; [exact Self|].
  rewrite Trace, Self. reflexivity.
Defined.

Lemma show_raises_when_displayed_witness :
  no_show (self saving) = false
  /\ fst (Visualizer.show 0 saving) = Raised Py.Cv2Error
  /\ trace (world (snd (Visualizer.show 0 saving)))
     = [EImshow "Window" 0 [17%Z]]
  /\ files (world (snd (Visualizer.show 0 saving))) = files (world saving).
Proof.
  split; [reflexivity|].
  exact (show_raises_when_displayed saving 0 eq_refl).
Defined.


Lemma constructed_show_uses_created_window_witness :
  monitors (world fresh) = [screen0]
  /\ exists s' : State,
       (Visualizer.__init__ (Some "Food") false false false None
          (Some "out.png")
        ;; Visualizer.show 0) fresh
       = (Raised Py.Cv2Error, s')
       /\ omap window_of (trace (world s'))
          = ["Food"; "Food"; "Food"; "Food"].
Proof.
  split; [reflexivity|].
  destruct (constructed_show_uses_created_window (Some "Food") false false
              None (Some "out.png") fresh screen0 [] 0 eq_refl)
    as [s' [Run Names]].
  exists s'. split; [exact Run|]. rewrite Names. reflexivity.
Defined.

Lemma constructed_draw_uses_configured_drawer_witness :
  monitors (world fresh) = [screen0]
  /\ exists s' : State,
       (Visualizer.__init__ None true true true None None
        ;; Visualizer.draw 0 [(0, 1)] None) fresh
       = (Ok 1, s')
       /\ renders (trace (world s'))
          = [({| show_count := true; is_one_label := true |}, [])].
Proof.
  split; [reflexivity|].
  destruct (constructed_draw_uses_configured_drawer (otx := marker)
              None true true true None None fresh screen0 [] 0 [(0, 1)] None
              eq_refl)
    as [s' [Run Drawn]].
  exists s'. split; [exact Run|]. rewrite Drawn. reflexivity.
Defined.

Lemma draw_keeps_every_live_array_witness :
  drawer_keeps_frame
  /\ 1 < length (heap (world {| self := plain;
                                world := with_heap [[[[1; 2; 3]]];
                                                    [[[7; 8; 9]]]]%Z world0 |}))
  /\ heap (world (snd (Visualizer.draw 0 [(0, 0)] None
                         {| self := plain;
                            world := with_heap [[[[1; 2; 3]]];
                                                [[[7; 8; 9]]]]%Z world0 |})))
     !! 1
     = Some [[[7; 8; 9]]]%Z.
Proof.
  split; [exact marker_keeps_frame|]. split; [simpl; lia|].
  exact (draw_keeps_every_live_array (otx := marker) 0 [(0, 0)] None
           {| self := plain;
              world := with_heap [[[[1; 2; 3]]]; [[[7; 8; 9]]]]%Z
                         world0 |} 1 marker_keeps_frame
           ltac:(simpl; lia)).
Defined.

Lemma video_delay_asks_rate_of_video_only_witness :
  no_show (self shown) = false
  /\ (str (get_type video30) = String.append "MediaType." (String.append "VIDEO" "")
      /\ fps_calls (trace (world (snd (Visualizer.video_delay ten_ms video30
                                         shown)))) = 1)
  /\ (~ (exists hd tl : string,
           str (get_type camera)
           = String.append hd (String.append "VIDEO" tl))
      /\ fst (Visualizer.video_delay ten_ms camera shown) = Ok tt).
Proof.
  split; [reflexivity|]. split.
  - split; [reflexivity|].
    exact (proj1 (video_delay_asks_rate_of_video_only shown ten_ms video30
                    eq_refl)
             (ex_intro _ "MediaType." (ex_intro _ "" eq_refl))).
  - assert (NoCut : ~ (exists hd tl : string,
                         str (get_type camera)
                         = String.append hd (String.append "VIDEO" tl))).
    { intros Cut. apply contains_splits in Cut. discriminate Cut. }
    split; [exact NoCut|].
    exact (proj1 (proj2 (video_delay_asks_rate_of_video_only shown ten_ms
                           camera eq_refl) NoCut)).
Defined.

Lemma is_quit_does_not_latch_witness :
  no_show (self {| self := plain; world := with_keys [113; -1; 113]%Z world0 |})
  = false
  /\ delay (self {| self := plain;
                    world := with_keys [113; -1; 113]%Z world0 |}) = Some 1%Z
  /\ keys (world {| self := plain;
                    world := with_keys [113; -1; 113]%Z world0 |})
     = [113; -1; 113]%Z
  /\ (b1 <- Visualizer.is_quit ;; b2 <- Visualizer.is_quit ;; ret (b1, b2))
       {| self := plain; world := with_keys [113; -1; 113]%Z world0 |}
     = (Ok (true, false),
        {| self := plain;
           world := with_keys [113]%Z
                      (emit [EWaitKey 1; EWaitKey 1] world0) |}).
Proof.
  split; [reflexivity|]. split; [reflexivity|]. split; [reflexivity|].
  exact (is_quit_does_not_latch
           {| self := plain; world := with_keys [113; -1; 113]%Z world0 |}
           1%Z 113%Z (-1)%Z [113%Z] eq_refl eq_refl eq_refl).
Defined.

Lemma methods_read_only_their_attributes_witness :
  (world shown
   = world {| self := set_output (Some "out.png") (set_window_name "Other" plain);
        world := world0 |}
   /\ shape_drawer (self shown)
      = shape_drawer (self {| self := set_output (Some "out.png") (set_window_name "Other" plain);
        world := world0 |})
   /\ no_show (self shown)
      = no_show (self {| self := set_output (Some "out.png") (set_window_name "Other" plain);
        world := world0 |})
   /\ delay (self shown)
      = delay (self {| self := set_output (Some "out.png") (set_window_name "Other" plain);
        world := world0 |})
   /\ world (snd (Visualizer.draw 0 [(0, 1)] None shown))
      = world (snd (Visualizer.draw 0 [(0, 1)] None
     {| self := set_output (Some "out.png") (set_window_name "Other" plain);
        world := world0 |}))
   /\ fst (Visualizer.is_quit shown)
      = fst (Visualizer.is_quit
     {| self := set_output (Some "out.png") (set_window_name "Other" plain);
        world := world0 |})
   /\ world (snd (Visualizer.video_delay ten_ms video30 shown))
      = world (snd (Visualizer.video_delay ten_ms video30
     {| self := set_output (Some "out.png") (set_window_name "Other" plain);
        world := world0 |})))
  /\ (world shown = world {| self := set_delay (Some 40%Z) plain; world := world0 |}
      /\ no_show (self shown) = no_show (self {| self := set_delay (Some 40%Z) plain; world := world0 |})
      /\ window_name (self shown)
         = window_name (self {| self := set_delay (Some 40%Z) plain; world := world0 |})
      /\ output (self shown) = output (self {| self := set_delay (Some 40%Z) plain; world := world0 |})
      /\ world (snd (Visualizer.show 0 shown))
         = world (snd (Visualizer.show 0 {| self := set_delay (Some 40%Z) plain; world := world0 |}))).
Proof.
  destruct (methods_read_only_their_attributes (otx := marker) shown
     {| self := set_output (Some "out.png") (set_window_name "Other" plain);
        world := world0 |}
              0 [(0, 1)] None ten_ms video30 eq_refl)
    as [Draw [Quit [Delay _]]].
  destruct (methods_read_only_their_attributes (otx := marker) shown
              {| self := set_delay (Some 40%Z) plain; world := world0 |}
              0 [(0, 1)] None ten_ms video30 eq_refl)
    as [_ [_ [_ Show]]].
  split.
  - split; [reflexivity|]. split; [reflexivity|]. split; [reflexivity|].
    split; [reflexivity|]. split.
    + exact (proj2 (Draw eq_refl)).
    + split.
      * exact (proj1 (Quit eq_refl eq_refl)).
      * exact (proj2 (Delay eq_refl)).
  - split; [reflexivity|]. split; [reflexivity|]. split; [reflexivity|].
    split; [reflexivity|].
    exact (proj2 (Show eq_refl eq_refl eq_refl)).
Defined.

End BehaviourRuns.
